(** * RRDColumn: the time-series list column of livestatus

    A shallow embedding of [livestatus/src/RRDColumn.h] and the properties of
    its two renderings: [RRDColumn<T>::output] (structured, through a
    [ListRenderer]) and [RRDColumn<T>::getValue] (flat, a vector of strings).

    Layout of the development:
    - [std]      the parts of the C++ standard library the header calls
                 ([std::chrono], [std::to_string]);
    - [detail]   [detail::RRDDataMaker::Data];
    - section [RRDColumn], the class template itself, parameterised by what
      the header only declares;
    - [Adapter]  the time-series adapter behind [RRDDataMaker::make];
    - [Scenario] a concrete core, store and rows on which everything runs,
      and [Probe], a store that holds a single window;
    - the properties. *)

From Stdlib Require Import ZArith NArith List String Ascii Bool Lia.
From Stdlib Require Import Numbers.DecimalString Numbers.DecimalPos Numbers.DecimalZ.
From Stdlib Require Import Floats.PrimFloat Floats.FloatOps Floats.SpecFloat.
Import ListNotations.
Open Scope Z_scope.

(** A decimal literal such as [0.7] denotes the nearest double, as in C++. *)
Set Warnings "-inexact-float".

(** ** The standard library, as used by the header *)

Module std.

(** Two's complement wrap-around of a signed 64-bit integer.  C++ leaves
    signed overflow undefined; the model takes what the machine computes. *)
Definition wrap64 (z : Z) : Z := (z + 2 ^ 63) mod 2 ^ 64 - 2 ^ 63.

Definition int64_range (z : Z) : Prop := - 2 ^ 63 <= z < 2 ^ 63.

Module chrono.

(** [std::chrono::seconds]: a signed 64-bit count of seconds. *)
Definition seconds : Type := Z.

(** [std::chrono::system_clock::time_point]: a signed 64-bit count of
    clock ticks since the epoch; libstdc++'s system clock ticks in
    nanoseconds. *)
Definition time_point : Type := Z.

Definition ticks_per_second : Z := 1000000000.

(** [time_point{}], the epoch. *)
Definition epoch : time_point := 0.

(** Conversion [seconds -> system_clock::duration], a multiplication. *)
Definition to_ticks (s : seconds) : Z := wrap64 (s * ticks_per_second).

(** [tp + d] for a duration in seconds. *)
Definition plus (tp : time_point) (d : seconds) : time_point :=
  wrap64 (tp + to_ticks d).

(** [system_clock::to_time_t]: [duration_cast<seconds>], which truncates
    towards zero. *)
Definition to_time_t (tp : time_point) : Z := Z.quot tp ticks_per_second.

(** Offsets in seconds whose tick count fits 64 bits. *)
Definition offset_fits (tz : seconds) : Prop :=
  - 9223372036 <= tz <= 9223372036.

End chrono.

(** [std::to_string(long)] and [std::to_string(unsigned long)]. *)
Definition to_string_long (z : Z) : string :=
  NilZero.string_of_int (Z.to_int z).

Definition to_string_unsigned_long (n : N) : string :=
  NilZero.string_of_uint (N.to_uint n).

(** A C++ [double].  Rocq's binary64 has a single NaN; a C++ NaN also has a
    sign bit, which printing shows, and a payload, which nothing here
    observes.  [Num x] with [x] the NaN is a NaN with a clear sign bit,
    [NegNaN] one with the sign bit set. *)
Inductive double : Type :=
| Num (x : float)
| NegNaN.

(** The part of the process's numeric locale ([LC_NUMERIC], C's
    [struct lconv]) that printing a double reads: the decimal point. *)
Record lconv : Type := { decimal_point : string }.

(** The "C" locale, which a process starts in. *)
Definition C_locale : lconv := {| decimal_point := "." |}.

(** [std::to_string(double)] is [sprintf("%f")]: fixed notation with six
    digits after the decimal point of the current locale, no grouping, the
    exact binary value rounded to nearest, ties to even; infinities and NaNs
    print as [inf] and [nan] with their sign. *)
Definition round_half_even (num den : Z) : Z :=
  let q := num / den in
  match 2 * (num mod den) ?= den with
  | Lt => q
  | Eq => if Z.even q then q else q + 1
  | Gt => q + 1
  end.

(** [|m * 2^e| * 10^6], rounded to an integer. *)
Definition micro_units (m : positive) (e : Z) : Z :=
  if 0 <=? e then Z.pos m * 2 ^ e * 10 ^ 6
  else round_half_even (Z.pos m * 10 ^ 6) (2 ^ (- e)).

Definition digit_char (d : Z) : ascii := ascii_of_nat (48 + Z.to_nat d).

Fixpoint frac_digits (k : nat) (f : Z) : string :=
  match k with
  | O => EmptyString
  | S k' => frac_digits k' (f / 10) ++ String (digit_char (f mod 10)) EmptyString
  end.

Definition fixed6 (lc : lconv) (u : Z) : string :=
  to_string_long (u / 10 ^ 6) ++ decimal_point lc
  ++ frac_digits 6 (u mod 10 ^ 6).

Definition sign_prefix (s : bool) : string := if s then "-" else "".

Definition to_string_double (lc : lconv) (x : double) : string :=
  match x with
  | NegNaN => "-nan"
  | Num x =>
      match Prim2SF x with
      | S754_zero s => sign_prefix s ++ fixed6 lc 0
      | S754_infinity s => sign_prefix s ++ "inf"
      | S754_nan => "nan"
      | S754_finite s m e => sign_prefix s ++ fixed6 lc (micro_units m e)
      end
  end.

End std.

Import std.
Import std.chrono.

(** ** [detail::RRDDataMaker::Data] *)

Module detail.

(** [struct Data { time_point start; time_point end; unsigned long step{};
    std::vector<double> values; }].  [end] is a keyword here, hence
    [end_]. *)
Record Data : Type := {
  start : time_point;
  end_ : time_point;
  step : N;
  values : list double
}.

(** [Data{}]: value-initialised members. *)
Definition Data_default : Data :=
  {| start := epoch; end_ := epoch; step := 0%N; values := [] |}.

(** The members hold what their C++ types can hold. *)
Definition Data_wf (d : Data) : Prop :=
  int64_range (start d) /\ int64_range (end_ d) /\ (step d < 2 ^ 64)%N.

End detail.

Import detail.

(** ** The renderer, as [output] sees it

    [Renderer.h] gives [ListRenderer] a constructor from a [RowRenderer], a
    destructor, and one [output] overload per value type.  The column is
    written against this interface only. *)

Class Renderer (RowRenderer ListRenderer : Type) : Type := {
  ListRenderer_open : RowRenderer -> ListRenderer;
  ListRenderer_close : ListRenderer -> RowRenderer;
  output_time_point : time_point -> ListRenderer -> ListRenderer;
  output_unsigned_long : N -> ListRenderer -> ListRenderer;
  output_double : double -> ListRenderer -> ListRenderer
}.

(** What a list renderer can be handed. *)
Inductive item : Type :=
| ITimePoint (tp : time_point)
| IUnsignedLong (n : N)
| IDouble (x : double).

(** Hand one item to a list renderer. *)
Definition emit {RR LR : Type} `{Renderer RR LR} (i : item) (l : LR) : LR :=
  match i with
  | ITimePoint tp => output_time_point tp l
  | IUnsignedLong n => output_unsigned_long n l
  | IDouble x => output_double x l
  end.

(** The recording renderer: a row is the sequence of lists rendered into it,
    a list under construction is the row so far and the items handed over so
    far.  It keeps the values as given, nested one level inside the row. *)
Definition Recorded : Type := list (list item).

#[export] Instance recorder : Renderer Recorded (Recorded * list item) := {
  ListRenderer_open r := (r, []);
  ListRenderer_close l := fst l ++ [snd l];
  output_time_point tp l := (fst l, snd l ++ [ITimePoint tp]);
  output_unsigned_long n l := (fst l, snd l ++ [IUnsignedLong n]);
  output_double x l := (fst l, snd l ++ [IDouble x])
}.

(** ** The class template [RRDColumn<T>] *)

Section RRDColumn.

(** Types the header only names: [MonitoringCore] (through which the
    time-series store is reached), [RRDColumnArgs], [ColumnOffsets], the
    payload of a [Row] and [contact]. *)
Context {MonitoringCore RRDColumnArgs ColumnOffsets Row contact : Type}.

(** [class RRDDataMaker { MonitoringCore *_mc; const RRDColumnArgs _args; }].
    The pointer [_mc] is modelled by the state it points to: the core
    together with the content of the store behind it. *)
Record RRDDataMaker : Type := {
  _mc : MonitoringCore;
  _args : RRDColumnArgs
}.

(** [Data make(const std::pair<std::string, std::string> &) const],
    declared in the header and defined elsewhere. *)
Variable make : RRDDataMaker -> string * string -> Data.

(** [RRDColumn : ListColumn{name, description, offsets}] with its one
    member [data_maker_]. *)
Record RRDColumn : Type := {
  name : string;
  description : string;
  offsets : ColumnOffsets;
  data_maker_ : RRDDataMaker
}.

(** [std::optional<std::pair<std::string, std::string>>
    getHostNameServiceDesc(Row) const], specialised per [T] elsewhere. *)
Variable getHostNameServiceDesc :
  RRDColumn -> Row -> option (string * string).

(** [RRDDataMaker(MonitoringCore *mc, const RRDColumnArgs &args)
      : _mc{mc}, _args{args} {}] *)
Definition RRDDataMaker_ctor (mc : MonitoringCore) (args : RRDColumnArgs)
    : RRDDataMaker :=
  {| _mc := mc; _args := args |}.

(** [RRDColumn(name, description, offsets, mc, args)
      : ListColumn{name, description, offsets}
      , data_maker_{detail::RRDDataMaker{mc, args}} {}] *)
Definition RRDColumn_ctor (name description : string) (offsets : ColumnOffsets)
    (mc : MonitoringCore) (args : RRDColumnArgs) : RRDColumn :=
  {| name := name; description := description; offsets := offsets;
     data_maker_ := RRDDataMaker_ctor mc args |}.

Definition getData (this : RRDColumn) (row : Row) : Data :=
  match getHostNameServiceDesc this row with
  | Some host_name_service_description =>
      make (data_maker_ this) host_name_service_description
  | None => Data_default
  end.

(** [void output(Row, RowRenderer &, const contact *, seconds) const].
    [auth_user] may be null. *)
Definition output {RR LR : Type} `{Renderer RR LR}
    (this : RRDColumn) (row : Row) (r : RR)
    (auth_user : option contact) (timezone_offset : seconds) : RR :=
  let data := getData this row in
  let l := ListRenderer_open r in
  let l := output_time_point (start data) l in
  let l := output_time_point (end_ data) l in
  let l := output_unsigned_long (step data) l in
  let l := fold_left (fun l value => output_double value l) (values data) l in
  ListRenderer_close l.

(** The numeric locale of the process, global state that [std::to_string]
    reads when [getValue] prints a sample. *)
Variable lc_numeric : lconv.

(** [std::vector<std::string> getValue(Row, const contact *, seconds) const] *)
Definition getValue (this : RRDColumn) (row : Row)
    (auth_user : option contact) (timezone_offset : seconds) : list string :=
  let data := getData this row in
  let strings := [] in
  let strings :=
    strings ++ [to_string_long (to_time_t (plus (start data) timezone_offset))] in
  let strings :=
    strings ++ [to_string_long (to_time_t (plus (end_ data) timezone_offset))] in
  let strings := strings ++ [to_string_unsigned_long (step data)] in
  strings ++ map (to_string_double lc_numeric) (values data).

End RRDColumn.

Arguments RRDDataMaker : clear implicits.
Arguments RRDColumn : clear implicits.

(** ** Flattening a structured list

    The flatten operation of the specification, in its own words: each
    element is converted to its canonical textual form, a timestamp as
    integer epoch seconds after the offset is applied, the step as an
    integer, a sample as decimal text; the order is kept.  The text of a
    sample is taken in the numeric locale [lc]. *)

Definition flatten_item (lc : lconv) (timezone_offset : seconds) (i : item)
    : string :=
  match i with
  | ITimePoint tp => to_string_long (to_time_t (plus tp timezone_offset))
  | IUnsignedLong n => to_string_unsigned_long n
  | IDouble x => to_string_double lc x
  end.

Definition flatten (lc : lconv) (timezone_offset : seconds) (l : list item)
    : list string :=
  map (flatten_item lc timezone_offset) l.

(** The epoch seconds a flat timestamp field denotes, if it is a decimal
    integer at all. *)
Definition parse_long (s : string) : option Z :=
  option_map Z.of_int (NilZero.int_of_string s).

(** The integer a flat step field denotes. *)
Definition parse_unsigned_long (s : string) : option N :=
  option_map N.of_uint (NilZero.uint_of_string s).

Definition is_digit (c : ascii) : bool :=
  ((48 <=? nat_of_ascii c)%nat && (nat_of_ascii c <=? 57)%nat)%bool.

Definition all_digits (s : string) : bool :=
  forallb is_digit (list_ascii_of_string s).

(** The number a string of digits denotes, leading zeros allowed. *)
Definition digits_value (s : string) : Z :=
  fold_left (fun acc c => 10 * acc + (Z.of_nat (nat_of_ascii c) - 48))
            (list_ascii_of_string s) 0.

(** [u] millionths is the value [m * 2^e] rounded to the nearest millionth,
    a tie going to the even one. *)
Definition nearest_millionth (m : positive) (e : Z) (u : Z) : Prop :=
  let den := 2 ^ Z.max 0 (- e) in
  let num := Z.pos m * 10 ^ 6 * 2 ^ Z.max 0 e in
  Z.abs (2 * (u * den - num)) <= den
  /\ (Z.abs (2 * (u * den - num)) = den -> Z.even u = true).

(** What the flat text of a sample looks like in the locale [lc]: a NaN and
    an infinity by name, with their sign; a zero and any other finite value
    with the sign, the integer part in decimal, the locale's decimal point
    and exactly six digits, the value being rounded to the nearest
    millionth. *)
Definition printed_sample (lc : lconv) (x : double) (text : string) : Prop :=
  match x with
  | NegNaN => text = "-nan"%string
  | Num x =>
      match Prim2SF x with
      | S754_nan => text = "nan"%string
      | S754_infinity s => text = (sign_prefix s ++ "inf")%string
      | S754_zero s =>
          text = (sign_prefix s ++ "0" ++ decimal_point lc ++ "000000")%string
      | S754_finite s m e =>
          exists (whole frac : string) (u : Z),
            text = (sign_prefix s ++ whole ++ decimal_point lc ++ frac)%string
            /\ nearest_millionth m e u
            /\ parse_long whole = Some (u / 10 ^ 6)
            /\ String.length frac = 6%nat
            /\ all_digits frac = true
            /\ digits_value frac = u mod 10 ^ 6
      end
  end.

(** The canonical empty window as the structured encoding shows it. *)
Definition empty_window : list item :=
  [ITimePoint epoch; ITimePoint epoch; IUnsignedLong 0%N].

(** ** The time-series adapter *)

Module Adapter.

(** What the time-series store answers to a fetch. *)
Inductive store_reply : Type :=
| Window (d : Data)
| NoSource
| Failure (what : string).

Section Make.

Context {MonitoringCore RRDColumnArgs : Type}.

(** The store collaborator, reached through the core. *)
Variable fetch :
  MonitoringCore -> RRDColumnArgs -> string * string -> store_reply.

(** Modelled from the spec: the body of [RRDDataMaker::make], which the
    header only declares.  A subject without a metrics source gives the
    canonical empty window; a reachable store gives the window it
    reports, with the step it actually used; a failure to reach the store
    (transient I/O error, timeout) is recovered here as the canonical
    empty window plus a non-fatal diagnostic. *)
Definition make_diagnosed (dm : RRDDataMaker MonitoringCore RRDColumnArgs)
    (host_name_service_description : string * string) : Data * list string :=
  match fetch (_mc dm) (_args dm) host_name_service_description with
  | Window d => (d, [])
  | NoSource => (Data_default, [])
  | Failure what => (Data_default, [what])
  end.

Definition make (dm : RRDDataMaker MonitoringCore RRDColumnArgs)
    (host_name_service_description : string * string) : Data :=
  fst (make_diagnosed dm host_name_service_description).

End Make.

End Adapter.

(** ** The enclosing query *)

(** Modelled from the spec: the query layer, which is not in the header, asks
    every requested column for every selected row, one render call per (row,
    column) pair. *)
Definition query_flat {MonitoringCore RRDColumnArgs ColumnOffsets Row contact : Type}
    (make : RRDDataMaker MonitoringCore RRDColumnArgs -> string * string -> Data)
    (getHostNameServiceDesc :
       RRDColumn MonitoringCore RRDColumnArgs ColumnOffsets -> Row ->
       option (string * string))
    (lc_numeric : lconv)
    (columns : list (RRDColumn MonitoringCore RRDColumnArgs ColumnOffsets))
    (rows : list Row) (auth_user : option contact) (timezone_offset : seconds)
    : list (list (list string)) :=
  map (fun row =>
         map (fun column =>
                getValue make getHostNameServiceDesc lc_numeric column row
                         auth_user timezone_offset)
             columns)
      rows.

(** ** A concrete core, store and rows *)

Module Scenario.

(** Rows are hosts, services, or records that map to no monitored
    subject. *)
Inductive Row : Type :=
| HostRow (host_name : string)
| ServiceRow (host_name service_description : string)
| Orphan.

(** The metric configuration is the metric's name; the core is the content
    of the store, keyed by subject and metric. *)
Definition RRDColumnArgs : Type := string.
Definition MonitoringCore : Type :=
  list ((string * string) * string * Adapter.store_reply).
Definition contact : Type := string.
Definition Column : Type := RRDColumn MonitoringCore RRDColumnArgs unit.

Definition getHostNameServiceDesc (this : Column) (row : Row)
    : option (string * string) :=
  match row with
  | HostRow h => Some (h, ""%string)
  | ServiceRow h d => Some (h, d)
  | Orphan => None
  end.

Definition same_key (k1 k2 : (string * string) * string) : bool :=
  (String.eqb (fst (fst k1)) (fst (fst k2))
   && String.eqb (snd (fst k1)) (snd (fst k2))
   && String.eqb (snd k1) (snd k2))%bool.

Fixpoint fetch (mc : MonitoringCore) (args : RRDColumnArgs)
    (subject : string * string) : Adapter.store_reply :=
  match mc with
  | [] => Adapter.NoSource
  | (k, reply) :: mc' =>
      if same_key k (subject, args) then reply else fetch mc' args subject
  end.

Definition make : RRDDataMaker MonitoringCore RRDColumnArgs ->
                  string * string -> Data :=
  Adapter.make fetch.

(** 2020-09-13 12:26:40 UTC, in seconds and in clock ticks. *)
Definition t0_seconds : Z := 1600000000.
Definition t0 : time_point := t0_seconds * ticks_per_second.

Definition cpu_load_window : Data :=
  {| start := t0;
     end_ := t0 + 120 * ticks_per_second;
     step := 60%N;
     values := [Num 0.5%float; Num 0.7%float] |}.

Definition core : MonitoringCore :=
  [ (("host1", "CPU load", "load1"), Adapter.Window cpu_load_window);
    (("host2", "CPU load", "load1"), Adapter.Failure "rrdcached: connection refused");
    (("host3", "", "load1"),
      Adapter.Window {| start := t0; end_ := t0; step := 300%N; values := [] |}) ]%string.

Definition column : Column :=
  {| name := "rrddata:load1"; description := "RRD metrics data";
     offsets := tt;
     data_maker_ := {| _mc := core; _args := "load1" |} |}%string.

(** The flat output of the column in a process whose numeric locale is
    [lc], and in one that runs in the "C" locale. *)
Definition flat_in (lc : lconv) (row : Row) (auth_user : option contact)
    (tz : seconds) : list string :=
  getValue make getHostNameServiceDesc lc column row auth_user tz.

Definition flat (row : Row) (auth_user : option contact) (tz : seconds)
    : list string :=
  flat_in C_locale row auth_user tz.

(** A locale whose decimal point is a comma, such as [de_DE]. *)
Definition comma_locale : lconv := {| decimal_point := "," |}.

Definition structured (row : Row) (auth_user : option contact) (tz : seconds)
    : Recorded :=
  output make getHostNameServiceDesc column row [] auth_user tz.

End Scenario.

(** ** Offsets that keep a time point in range *)

(** Adding [tz] seconds to [tp] overflows neither in the conversion of the
    offset to ticks nor in the sum. *)
Definition shift_fits (tp : time_point) (tz : seconds) : Prop :=
  offset_fits tz /\ int64_range (tp + tz * ticks_per_second).

(** Moreover the time point is at or after the epoch, before and after the
    shift. *)
Definition shift_stays_after_epoch (tp : time_point) (tz : seconds) : Prop :=
  shift_fits tp tz /\ 0 <= tp /\ 0 <= tp + tz * ticks_per_second.

(** ** What a flat field is made of *)

(** The characters of a decimal integer: digits and the sign. *)
Definition is_integer_char (c : ascii) : bool :=
  (is_digit c || Ascii.eqb c "-")%bool.

(** A field that is not empty and holds the characters of an integer only. *)
Definition integer_field (s : string) : bool :=
  (negb (String.eqb s "")
   && forallb is_integer_char (list_ascii_of_string s))%bool.

(** The characters [std::to_string] can produce for a double: those of an
    integer, the letters of [inf] and [nan], and whatever the locale's
    decimal point is made of. *)
Definition is_sample_char (lc : lconv) (c : ascii) : bool :=
  (is_integer_char c
   || Ascii.eqb c "i" || Ascii.eqb c "n" || Ascii.eqb c "f" || Ascii.eqb c "a"
   || existsb (Ascii.eqb c) (list_ascii_of_string (decimal_point lc)))%bool.

Definition sample_text (lc : lconv) (s : string) : bool :=
  forallb (is_sample_char lc) (list_ascii_of_string s).

Definition sample_field (lc : lconv) (s : string) : bool :=
  (negb (String.eqb s "") && sample_text lc s)%bool.

(** ** A one-window store *)

Module Probe.

(** The core holds one window, which the store delivers for every subject; a
    row is the subject it resolves to, if any. *)
Definition MonitoringCore : Type := Data.
Definition Row : Type := option (string * string).
Definition contact : Type := string.
Definition Column : Type := RRDColumn MonitoringCore unit unit.

Definition make (dm : RRDDataMaker MonitoringCore unit)
    (host_name_service_description : string * string) : Data :=
  _mc dm.

Definition getHostNameServiceDesc (this : Column) (row : Row)
    : option (string * string) :=
  row.

(** A window that starts a quarter of a second after a whole second and
    holds samples below the sixth decimal. *)
Definition fine_window : Data :=
  {| start := 1500000000 * ticks_per_second + 250000000;
     end_ := 1500000300 * ticks_per_second + 750000000;
     step := 1%N;
     values := [Num 0.0000001%float; Num (-0.0000004)%float;
              Num 0.25%float] |}.

Definition column (d : Data) : Column :=
  RRDColumn_ctor "rrddata" "RRD metrics data" tt d tt.

Definition service : Row := Some ("host1", "CPU load")%string.

(** The process runs in the "C" locale. *)
Definition flat (d : Data) (row : Row) (tz : seconds) : list string :=
  getValue make getHostNameServiceDesc C_locale (column d) row
           (@None contact) tz.

Definition structured (d : Data) (row : Row) (tz : seconds) : Recorded :=
  output make getHostNameServiceDesc (column d) row [] (@None contact) tz.

End Probe.

(** * Properties *)

(** ** Integers, time points and text *)

Lemma wrap64_id (z : Z) : int64_range z -> wrap64 z = z.
Proof.
  unfold int64_range, wrap64. intros Hz.
  rewrite Z.mod_small; lia.
Qed.

Lemma wrap64_range (z : Z) : int64_range (wrap64 z).
Proof.
  unfold int64_range, wrap64.
  pose proof (Z.mod_pos_bound (z + 2 ^ 63) (2 ^ 64) ltac:(lia)). lia.
Qed.

Lemma plus_zero (tp : time_point) : int64_range tp -> plus tp 0 = tp.
Proof.
  intros Htp. unfold plus, to_ticks. simpl.
  rewrite (wrap64_id 0) by (unfold int64_range; lia).
  rewrite Z.add_0_r. now apply wrap64_id.
Qed.

Lemma epoch_plus (tz : seconds) :
  offset_fits tz -> to_time_t (plus epoch tz) = tz.
Proof.
  unfold offset_fits, plus, to_ticks, epoch, to_time_t, ticks_per_second.
  intros Htz. rewrite Z.add_0_l.
  rewrite (wrap64_id (wrap64 _)) by apply wrap64_range.
  rewrite wrap64_id by (unfold int64_range; lia).
  apply Z.quot_mul. lia.
Qed.

(** A time point on a whole second, shifted by an offset, as long as nothing
    leaves the 64-bit range. *)
Lemma whole_seconds_plus (s tz : Z) :
  offset_fits tz -> int64_range ((s + tz) * ticks_per_second) ->
  to_time_t (plus (s * ticks_per_second) tz) = s + tz.
Proof.
  unfold offset_fits, plus, to_ticks, to_time_t. intros Htz Hr.
  rewrite (wrap64_id (tz * _)) by (unfold int64_range, ticks_per_second; lia).
  rewrite <- Z.mul_add_distr_r, wrap64_id by assumption.
  apply Z.quot_mul. discriminate.
Qed.

Lemma to_int_proper (z : Z) :
  Z.to_int z <> Decimal.Pos Decimal.Nil /\ Z.to_int z <> Decimal.Neg Decimal.Nil.
Proof.
  destruct z as [|p|p]; simpl; split; try discriminate;
    intros [= H]; now apply DecimalPos.Unsigned.to_uint_nonnil in H.
Qed.

(** The text of an integer is its decimal numeral: it reads back. *)
Lemma parse_long_to_string_long (z : Z) :
  parse_long (to_string_long z) = Some z.
Proof.
  unfold parse_long, to_string_long.
  destruct (to_int_proper z) as [Hp Hn].
  rewrite NilZero.isi by assumption. simpl.
  now rewrite DecimalZ.of_to.
Qed.

Lemma to_string_long_inj (a b : Z) :
  to_string_long a = to_string_long b -> a = b.
Proof.
  intros H. apply (f_equal parse_long) in H.
  rewrite !parse_long_to_string_long in H. congruence.
Qed.

Lemma parse_unsigned_long_to_string (n : N) :
  parse_unsigned_long (to_string_unsigned_long n) = Some n.
Proof.
  unfold parse_unsigned_long, to_string_unsigned_long.
  destruct n as [|p]; [reflexivity |].
  rewrite NilZero.usu by apply DecimalPos.Unsigned.to_uint_nonnil.
  simpl. f_equal. apply (DecimalN.Unsigned.of_to (Npos p)).
Qed.

Lemma digit_char_is_digit (d : Z) :
  0 <= d < 10 -> is_digit (digit_char d) = true.
Proof.
  intros Hd.
  assert (Hcases : d = 0 \/ d = 1 \/ d = 2 \/ d = 3 \/ d = 4 \/ d = 5
                   \/ d = 6 \/ d = 7 \/ d = 8 \/ d = 9) by lia.
  repeat (destruct Hcases as [-> | Hcases]; [reflexivity |]).
  subst d. reflexivity.
Qed.

Lemma all_digits_app (a b : string) :
  all_digits (a ++ b) = (all_digits a && all_digits b)%bool.
Proof.
  unfold all_digits. induction a as [|c a IH]; simpl; [reflexivity |].
  now rewrite IH, Bool.andb_assoc.
Qed.

Lemma frac_digits_all_digits (k : nat) (f : Z) :
  all_digits (frac_digits k f) = true.
Proof.
  revert f. induction k as [|k IH]; intros f; simpl; [reflexivity |].
  rewrite all_digits_app, IH. unfold all_digits.
  cbn [list_ascii_of_string forallb andb].
  rewrite digit_char_is_digit; [reflexivity |].
  apply Z.mod_pos_bound. lia.
Qed.

Lemma string_length_app (a b : string) :
  String.length (a ++ b) = (String.length a + String.length b)%nat.
Proof.
  induction a as [|c a IH]; simpl; [reflexivity | now rewrite IH].
Qed.

Lemma frac_digits_length (k : nat) (f : Z) :
  String.length (frac_digits k f) = k.
Proof.
  revert f. induction k as [|k IH]; intros f; simpl.
  - reflexivity.
  - rewrite string_length_app, IH. simpl. lia.
Qed.

Lemma digit_char_value (d : Z) :
  0 <= d < 10 -> Z.of_nat (nat_of_ascii (digit_char d)) - 48 = d.
Proof.
  intros Hd.
  assert (Hcases : d = 0 \/ d = 1 \/ d = 2 \/ d = 3 \/ d = 4 \/ d = 5
                   \/ d = 6 \/ d = 7 \/ d = 8 \/ d = 9) by lia.
  repeat (destruct Hcases as [-> | Hcases]; [reflexivity |]).
  subst d. reflexivity.
Qed.

Lemma digits_value_snoc (a : string) (c : ascii) :
  digits_value (a ++ String c EmptyString)
  = 10 * digits_value a + (Z.of_nat (nat_of_ascii c) - 48).
Proof.
  unfold digits_value.
  assert (Happ : forall a b, list_ascii_of_string (a ++ b)
                             = (list_ascii_of_string a ++ list_ascii_of_string b)%list).
  { intros a0 b0. induction a0 as [|c0 a0 IH]; cbn [append list_ascii_of_string];
      [reflexivity | now rewrite IH]. }
  rewrite Happ, fold_left_app. reflexivity.
Qed.

Lemma digits_value_frac_digits (k : nat) (f : Z) :
  0 <= f -> digits_value (frac_digits k f) = f mod 10 ^ Z.of_nat k.
Proof.
  revert f. induction k as [|k IH]; intros f Hf.
  - cbn [frac_digits]. now rewrite Z.mod_1_r.
  - cbn [frac_digits].
    rewrite digits_value_snoc, IH by (apply Z.div_pos; lia).
    rewrite digit_char_value by (apply Z.mod_pos_bound; lia).
    rewrite Nat2Z.inj_succ, Z.pow_succ_r by lia.
    rewrite (Z.rem_mul_r f 10 (10 ^ Z.of_nat k)) by lia.
    lia.
Qed.

Lemma round_half_even_nearest (num den : Z) :
  0 < den ->
  Z.abs (2 * (round_half_even num den * den - num)) <= den
  /\ (Z.abs (2 * (round_half_even num den * den - num)) = den ->
      Z.even (round_half_even num den) = true).
Proof.
  intros Hden. unfold round_half_even.
  pose proof (Z.div_mod num den ltac:(lia)) as Hdm.
  pose proof (Z.mod_pos_bound num den Hden) as Hr.
  set (q := num / den) in *. set (r := num mod den) in *.
  destruct (Z.compare_spec (2 * r) den) as [Heq | Hlt | Hgt].
  - destruct (Z.even q) eqn:Hq.
    + split; [nia | intros _; exact Hq].
    + split; [nia | intros _].
      rewrite Z.even_add, Hq. reflexivity.
  - split; [nia | intros Habs; exfalso; nia].
  - split; [nia | intros Habs; exfalso; nia].
Qed.

Lemma micro_units_nearest (m : positive) (e : Z) :
  nearest_millionth m e (micro_units m e).
Proof.
  unfold nearest_millionth, micro_units.
  destruct (0 <=? e) eqn:Hsign.
  - apply Z.leb_le in Hsign.
    rewrite (Z.max_l 0 (- e)), (Z.max_r 0 e) by lia.
    change (2 ^ 0) with 1.
    replace (Z.pos m * 2 ^ e * 10 ^ 6 * 1 - Z.pos m * 10 ^ 6 * 2 ^ e) with 0 by ring.
    split; [simpl; lia | simpl; intros Habs; discriminate Habs].
  - apply Z.leb_gt in Hsign.
    rewrite (Z.max_r 0 (- e)), (Z.max_l 0 e) by lia.
    change (2 ^ 0) with 1. rewrite Z.mul_1_r.
    apply round_half_even_nearest. apply Z.pow_pos_nonneg; lia.
Qed.

(** The text of a sample is its printed form. *)
Lemma to_string_double_printed (lc : lconv) (x : double) :
  printed_sample lc x (to_string_double lc x).
Proof.
  unfold printed_sample, to_string_double.
  destruct x as [x |]; [| reflexivity].
  destruct (Prim2SF x) as [s | s | | s m e]; try reflexivity.
  exists (to_string_long (micro_units m e / 10 ^ 6)),
         (frac_digits 6 (micro_units m e mod 10 ^ 6)),
         (micro_units m e).
  split; [reflexivity |].
  split; [apply micro_units_nearest |].
  split; [apply parse_long_to_string_long |].
  split; [apply frac_digits_length |].
  split; [apply frac_digits_all_digits |].
  rewrite digits_value_frac_digits by (apply Z.mod_pos_bound; lia).
  change (10 ^ Z.of_nat 6) with (10 ^ 6). apply Z.mod_mod. lia.
Qed.

(** ** The recording renderer *)

Lemma recorder_fold (r : Recorded) (xs : list double) (acc : list item) :
  fold_left (fun l value => output_double value l) xs (r, acc)
  = (r, acc ++ map IDouble xs).
Proof.
  revert acc. induction xs as [|x xs IH]; intros acc; simpl.
  - now rewrite app_nil_r.
  - rewrite IH. now rewrite <- app_assoc.
Qed.

Lemma emit_fold {RR LR : Type} `{Renderer RR LR} (xs : list double) (l : LR) :
  fold_left (fun l value => output_double value l) xs l
  = fold_left (fun l i => emit i l) (map IDouble xs) l.
Proof.
  revert l. induction xs as [|x xs IH]; intros l; simpl; [reflexivity | apply IH].
Qed.

Section Properties.

Context {MonitoringCore RRDColumnArgs ColumnOffsets Row contact : Type}.
Variable make : RRDDataMaker MonitoringCore RRDColumnArgs -> string * string -> Data.
Variable getHostNameServiceDesc :
  RRDColumn MonitoringCore RRDColumnArgs ColumnOffsets -> Row ->
  option (string * string).
Variable lc_numeric : lconv.

Abbreviation Column := (RRDColumn MonitoringCore RRDColumnArgs ColumnOffsets).

Lemma getData_unresolved_raw (this : Column) (row : Row) :
  getHostNameServiceDesc this row = None ->
  getData make getHostNameServiceDesc this row = Data_default.
Proof. unfold getData. now intros ->. Qed.

Lemma output_replay_raw {RR LR : Type} `{Renderer RR LR}
    (this : Column) (row : Row) (r : RR)
    (auth_user : option contact) (tz : seconds) :
  output make getHostNameServiceDesc this row r auth_user tz
  = let data := getData make getHostNameServiceDesc this row in
    ListRenderer_close
      (fold_left (fun l i => emit i l)
         (ITimePoint (start data) :: ITimePoint (end_ data)
          :: IUnsignedLong (step data) :: map IDouble (values data))
         (ListRenderer_open r)).
Proof. unfold output. simpl. now rewrite emit_fold. Qed.

Lemma output_recorded_raw (this : Column) (row : Row) (r : Recorded)
    (auth_user : option contact) (tz : seconds) :
  output make getHostNameServiceDesc this row r auth_user tz
  = let data := getData make getHostNameServiceDesc this row in
    r ++ [ITimePoint (start data) :: ITimePoint (end_ data)
          :: IUnsignedLong (step data) :: map IDouble (values data)].
Proof. unfold output. simpl. now rewrite recorder_fold. Qed.

Abbreviation getData := (getData make getHostNameServiceDesc).
Abbreviation output := (output make getHostNameServiceDesc).
Abbreviation getValue := (getValue make getHostNameServiceDesc lc_numeric).

(** What [output] hands to the recording renderer. *)
Lemma output_recorded (this : Column) (row : Row) (r : Recorded)
    (auth_user : option contact) (tz : seconds) :
  output this row r auth_user tz
  = r ++ [ITimePoint (start (getData this row))
          :: ITimePoint (end_ (getData this row))
          :: IUnsignedLong (step (getData this row))
          :: map IDouble (values (getData this row))].
Proof. apply output_recorded_raw. Qed.

(** What [getValue] returns. *)
Lemma getValue_strings (this : Column) (row : Row)
    (auth_user : option contact) (tz : seconds) :
  getValue this row auth_user tz
  = to_string_long (to_time_t (plus (start (getData this row)) tz))
    :: to_string_long (to_time_t (plus (end_ (getData this row)) tz))
    :: to_string_unsigned_long (step (getData this row))
    :: map (to_string_double lc_numeric) (values (getData this row)).
Proof. reflexivity. Qed.

Lemma getData_unresolved (this : Column) (row : Row) :
  getHostNameServiceDesc this row = None -> getData this row = Data_default.
Proof. apply getData_unresolved_raw. Qed.

(** C1: for every row whose subject cannot be resolved, and for every viewer
    and timezone offset, both encodings give the canonical empty window,
    three metadata fields and no values: the structured output is exactly
    [epoch(0), epoch(0), 0], and the flat output is that same content in flat
    form, the flattening of [epoch(0), epoch(0), 0] at the call's offset. *)
Theorem unresolved_subject_renders_empty_window
    (this : Column) (row : Row) (r : Recorded)
    (auth_user : option contact) (tz : seconds) :
  getHostNameServiceDesc this row = None ->
  output this row r auth_user tz = r ++ [empty_window]
  /\ getValue this row auth_user tz = flatten lc_numeric tz empty_window
  /\ getValue this row auth_user tz
     = [to_string_long (to_time_t (plus epoch tz));
        to_string_long (to_time_t (plus epoch tz)); "0"%string]
  /\ List.length (getValue this row auth_user tz) = 3%nat
  /\ (offset_fits tz ->
      getValue this row auth_user tz
      = [to_string_long tz; to_string_long tz; "0"%string])
  /\ getValue this row auth_user 0 = ["0"; "0"; "0"]%string.
Proof.
  intros Hnone.
  rewrite output_recorded, !getValue_strings, (getData_unresolved _ _ Hnone).
  simpl. repeat split.
  intros Hfit. now rewrite (epoch_plus _ Hfit).
Qed.

(** C2: for every row, viewer and timezone offset, [getValue] returns exactly
    3 + n strings, n being the number of samples of the fetched window: start,
    end and step first, then the samples in the window's order; a window with
    no samples gives the three metadata fields only, in both modes. *)
Theorem flat_is_metadata_then_values
    (this : Column) (row : Row) (r : Recorded)
    (auth_user : option contact) (tz : seconds) :
  getValue this row auth_user tz
  = [to_string_long (to_time_t (plus (start (getData this row)) tz));
     to_string_long (to_time_t (plus (end_ (getData this row)) tz));
     to_string_unsigned_long (step (getData this row))]
    ++ map (to_string_double lc_numeric) (values (getData this row))
  /\ List.length (getValue this row auth_user tz)
     = (3 + List.length (values (getData this row)))%nat
  /\ (forall i : nat,
        nth_error (getValue this row auth_user tz) (3 + i)
        = option_map (to_string_double lc_numeric) (nth_error (values (getData this row)) i))
  /\ (values (getData this row) = [] ->
      List.length (getValue this row auth_user tz) = 3%nat
      /\ output this row r auth_user tz
         = r ++ [[ITimePoint (start (getData this row));
                  ITimePoint (end_ (getData this row));
                  IUnsignedLong (step (getData this row))]]).
Proof.
  rewrite output_recorded, getValue_strings.
  split; [reflexivity | split; [| split]].
  - simpl. now rewrite length_map.
  - intros i. simpl. apply nth_error_map.
  - intros ->. split; reflexivity.
Qed.

(** C3: for every row, the structured render hands the renderer the start
    timestamp, the end timestamp, the step and then each sample in sequence
    order, the three metadata fields before any sample; this holds for the
    recording renderer and, item for item, for any other renderer. *)
Theorem structured_is_metadata_then_values {RR LR : Type} `{Renderer RR LR}
    (this : Column) (row : Row) (r : RR) (rec : Recorded)
    (auth_user : option contact) (tz : seconds) :
  output this row rec auth_user tz
  = rec ++ [[ITimePoint (start (getData this row));
             ITimePoint (end_ (getData this row));
             IUnsignedLong (step (getData this row))]
            ++ map IDouble (values (getData this row))]
  /\ output this row r auth_user tz
     = ListRenderer_close
         (fold_left (fun l i => emit i l)
            ([ITimePoint (start (getData this row));
              ITimePoint (end_ (getData this row));
              IUnsignedLong (step (getData this row))]
             ++ map IDouble (values (getData this row)))
            (ListRenderer_open r)).
Proof.
  split.
  - apply output_recorded.
  - apply output_replay_raw.
Qed.


(** C5: for every row and any two timezone offsets, the flat outputs differ
    at most in their first two fields, the timestamps: the step field and
    every sample are the same; and with offset 0 the two timestamps are the
    store-reported times themselves, in epoch seconds. *)
Theorem offset_shifts_timestamps_only
    (this : Column) (row : Row)
    (auth_user : option contact) (tz1 tz2 : seconds) :
  skipn 2 (getValue this row auth_user tz1)
  = skipn 2 (getValue this row auth_user tz2)
  /\ skipn 2 (getValue this row auth_user tz1)
     = to_string_unsigned_long (step (getData this row))
       :: map (to_string_double lc_numeric) (values (getData this row))
  /\ List.length (getValue this row auth_user tz1)
     = List.length (getValue this row auth_user tz2)
  /\ (Data_wf (getData this row) ->
      firstn 2 (getValue this row auth_user 0)
      = [to_string_long (to_time_t (start (getData this row)));
         to_string_long (to_time_t (end_ (getData this row)))]).
Proof.
  rewrite !getValue_strings. repeat split.
  intros (Hs & He & _). simpl.
  now rewrite (plus_zero _ Hs), (plus_zero _ He).
Qed.

(** C6: the structured render does not depend on the timezone offset: for
    every renderer, row and viewer, any two offsets give the same output. *)
Theorem structured_ignores_offset {RR LR : Type} `{Renderer RR LR}
    (this : Column) (row : Row) (r : RR)
    (auth_user : option contact) (tz1 tz2 : seconds) :
  output this row r auth_user tz1 = output this row r auth_user tz2.
Proof. rewrite !output_replay_raw. reflexivity. Qed.

(** C10: the viewer is not interpreted: for every row and timezone offset,
    any two viewers get the same structured output and the same flat
    output. *)
Theorem viewer_is_not_interpreted {RR LR : Type} `{Renderer RR LR}
    (this : Column) (row : Row) (r : RR)
    (viewer1 viewer2 : option contact) (tz : seconds) :
  output this row r viewer1 tz = output this row r viewer2 tz
  /\ getValue this row viewer1 tz = getValue this row viewer2 tz.
Proof.
  split.
  - rewrite !output_replay_raw. reflexivity.
  - rewrite !getValue_strings. reflexivity.
Qed.

(** C7 (amended): in flat mode each value is rendered as [std::to_string]
    gives it: the two timestamps as the decimal text of integer epoch seconds
    (after adding tzOffset), the step as the decimal text of an integer, and
    each sample in fixed notation with exactly six digits after the decimal
    point, rounded to the nearest millionth, the decimal point being that of
    the process's numeric locale ("." in the "C" locale) and no grouping
    being applied; an infinite sample prints as "inf" or "-inf" and a NaN as
    "nan" or "-nan".  In particular, for a window with step 60, range
    [t0, t0+120) on whole seconds and store values [0.5, 0.7], the structured
    output is [t0, t0+120, 60, 0.5, 0.7] and the flat output in the "C"
    locale is [epoch(t0)+tz, epoch(t0+120)+tz, "60", "0.500000", "0.700000"],
    as long as the shifted times fit 64 bits. *)
Theorem flat_text_forms
    (this : Column) (row : Row) (r : Recorded)
    (auth_user : option contact) (tz : seconds) (t0_seconds : Z) :
  getValue this row auth_user tz
  = [to_string_long (to_time_t (plus (start (getData this row)) tz));
     to_string_long (to_time_t (plus (end_ (getData this row)) tz));
     to_string_unsigned_long (step (getData this row))]
    ++ map (to_string_double lc_numeric) (values (getData this row))
  /\ map parse_long (firstn 2 (getValue this row auth_user tz))
     = [Some (to_time_t (plus (start (getData this row)) tz));
        Some (to_time_t (plus (end_ (getData this row)) tz))]
  /\ option_map parse_unsigned_long (nth_error (getValue this row auth_user tz) 2)
     = Some (Some (step (getData this row)))
  /\ (forall (i : nat) (x : double),
        nth_error (values (getData this row)) i = Some x ->
        exists text : string,
          nth_error (getValue this row auth_user tz) (3 + i) = Some text
          /\ printed_sample lc_numeric x text)
  /\ (getData this row
      = {| start := t0_seconds * ticks_per_second;
           end_ := (t0_seconds + 120) * ticks_per_second;
           step := 60%N;
           values := [Num 0.5%float; Num 0.7%float] |} ->
      offset_fits tz ->
      int64_range ((t0_seconds + tz) * ticks_per_second) ->
      int64_range ((t0_seconds + 120 + tz) * ticks_per_second) ->
      output this row r auth_user tz
      = r ++ [[ITimePoint (t0_seconds * ticks_per_second);
               ITimePoint ((t0_seconds + 120) * ticks_per_second);
               IUnsignedLong 60%N;
               IDouble (Num 0.5%float); IDouble (Num 0.7%float)]]
      /\ getValue this row auth_user tz
         = [to_string_long (t0_seconds + tz);
            to_string_long (t0_seconds + 120 + tz);
            "60"%string;
            ("0" ++ decimal_point lc_numeric ++ "500000")%string;
            ("0" ++ decimal_point lc_numeric ++ "700000")%string]
      /\ (lc_numeric = C_locale ->
          getValue this row auth_user tz
          = [to_string_long (t0_seconds + tz);
             to_string_long (t0_seconds + 120 + tz);
             "60"; "0.500000"; "0.700000"]%string)).
Proof.
  rewrite output_recorded, !getValue_strings.
  split; [reflexivity | split; [| split; [| split]]].
  - simpl. now rewrite !parse_long_to_string_long.
  - simpl. now rewrite parse_unsigned_long_to_string.
  - intros i x Hi.
    exists (to_string_double lc_numeric x). split.
    + cbn [Nat.add nth_error app]. now rewrite nth_error_map, Hi.
    + apply to_string_double_printed.
  - intros -> Hfit Hs He. cbn [start end_ step values map app].
    rewrite (whole_seconds_plus _ _ Hfit Hs), (whole_seconds_plus _ _ Hfit He).
    split; [reflexivity | split; [reflexivity |]].
    intros ->. reflexivity.
Qed.

End Properties.

(** ** The adapter behind [make] *)

Section AdapterProperties.

Context {MonitoringCore RRDColumnArgs ColumnOffsets Row contact : Type}.
Variable fetch :
  MonitoringCore -> RRDColumnArgs -> string * string -> Adapter.store_reply.
Variable getHostNameServiceDesc :
  RRDColumn MonitoringCore RRDColumnArgs ColumnOffsets -> Row ->
  option (string * string).
Variable lc_numeric : lconv.

Abbreviation Column := (RRDColumn MonitoringCore RRDColumnArgs ColumnOffsets).

Lemma getData_failure_raw (this : Column) (row : Row)
    (subject : string * string) (what : string) :
  getHostNameServiceDesc this row = Some subject ->
  fetch (_mc (data_maker_ this)) (_args (data_maker_ this)) subject
  = Adapter.Failure what ->
  getData (Adapter.make fetch) getHostNameServiceDesc this row = Data_default.
Proof.
  intros Hrow Hfail.
  unfold getData, Adapter.make, Adapter.make_diagnosed.
  now rewrite Hrow, Hfail.
Qed.

Lemma getData_window_raw (this : Column) (row : Row)
    (subject : string * string) (d : Data) :
  getHostNameServiceDesc this row = Some subject ->
  fetch (_mc (data_maker_ this)) (_args (data_maker_ this)) subject
  = Adapter.Window d ->
  getData (Adapter.make fetch) getHostNameServiceDesc this row = d.
Proof.
  intros Hrow Hfail.
  unfold getData, Adapter.make, Adapter.make_diagnosed.
  now rewrite Hrow, Hfail.
Qed.

Abbreviation getData := (getData (Adapter.make fetch) getHostNameServiceDesc).
Abbreviation output := (output (Adapter.make fetch) getHostNameServiceDesc).
Abbreviation getValue :=
  (getValue (Adapter.make fetch) getHostNameServiceDesc lc_numeric).

(** C9: when the store fails while a row's window is fetched, the render
    call returns, in both encodings, what it returns for a row whose subject
    cannot be resolved, the canonical empty window, and the failure is kept
    as a diagnostic; in the enclosing query every row still gets an answer
    for every column, and a row whose window the store delivers is rendered
    from that window. *)
Theorem store_failure_degrades_to_empty_window {RR LR : Type} `{Renderer RR LR}
    (this : Column) (row unresolved : Row)
    (subject : string * string) (what : string)
    (r : RR) (rec : Recorded) (auth_user : option contact) (tz : seconds) :
  getHostNameServiceDesc this row = Some subject ->
  fetch (_mc (data_maker_ this)) (_args (data_maker_ this)) subject
  = Adapter.Failure what ->
  getHostNameServiceDesc this unresolved = None ->
  output this row r auth_user tz = output this unresolved r auth_user tz
  /\ getValue this row auth_user tz = getValue this unresolved auth_user tz
  /\ output this row rec auth_user tz = rec ++ [empty_window]
  /\ List.length (getValue this row auth_user tz) = 3%nat
  /\ Adapter.make_diagnosed fetch (data_maker_ this) subject
     = (Data_default, [what])
  /\ (forall (columns : list Column) (rows : list Row) (i : nat),
        List.length (query_flat (Adapter.make fetch) getHostNameServiceDesc lc_numeric
                          columns rows auth_user tz) = List.length rows
        /\ nth_error (query_flat (Adapter.make fetch) getHostNameServiceDesc lc_numeric
                          columns rows auth_user tz) i
           = option_map
               (fun row' => map (fun column => getValue column row' auth_user tz)
                                columns)
               (nth_error rows i))
  /\ (forall (row' : Row) (subject' : string * string) (d : Data),
        getHostNameServiceDesc this row' = Some subject' ->
        fetch (_mc (data_maker_ this)) (_args (data_maker_ this)) subject'
        = Adapter.Window d ->
        query_flat (Adapter.make fetch) getHostNameServiceDesc lc_numeric
                   [this] [row; row'; unresolved] auth_user tz
        = [ [[to_string_long (to_time_t (plus epoch tz));
              to_string_long (to_time_t (plus epoch tz)); "0"%string]];
            [[to_string_long (to_time_t (plus (start d) tz));
              to_string_long (to_time_t (plus (end_ d) tz));
              to_string_unsigned_long (step d)]
             ++ map (to_string_double lc_numeric) (values d)];
            [[to_string_long (to_time_t (plus epoch tz));
              to_string_long (to_time_t (plus epoch tz)); "0"%string]] ]).
Proof.
  intros Hrow Hfail Hnone.
  pose proof (getData_failure_raw _ _ _ _ Hrow Hfail) as Hdata.
  pose proof (getData_unresolved_raw (Adapter.make fetch) _ _ _ Hnone) as Hdata0.
  rewrite output_recorded_raw, !output_replay_raw, !getValue_strings.
  rewrite Hdata, Hdata0. simpl.
  repeat match goal with |- _ /\ _ => split end; try reflexivity.
  - unfold Adapter.make_diagnosed. now rewrite Hfail.
  - intros columns rows i. unfold query_flat.
    now rewrite length_map, nth_error_map.
  - intros row' subject' d Hrow' Hwindow. unfold query_flat. simpl.
    rewrite !getValue_strings, Hdata, Hdata0,
      (getData_window_raw _ _ _ _ Hrow' Hwindow).
    reflexivity.
Qed.

End AdapterProperties.
(** ** The properties on the concrete scenario *)

(** The unresolved row of the scenario, seen by a viewer one hour east. *)
Lemma unresolved_subject_witness :
  Scenario.getHostNameServiceDesc Scenario.column Scenario.Orphan = None
  /\ Scenario.structured Scenario.Orphan (Some "alice"%string) 3600
     = [empty_window]
  /\ Scenario.flat Scenario.Orphan (Some "alice"%string) 3600
     = flatten C_locale 3600 empty_window
  /\ Scenario.flat Scenario.Orphan (Some "alice"%string) 3600
     = ["3600"; "3600"; "0"]%string.
Proof.
  split; [reflexivity |].
  destruct (unresolved_subject_renders_empty_window
              Scenario.make Scenario.getHostNameServiceDesc C_locale
              Scenario.column Scenario.Orphan [] (Some "alice"%string) 3600
              eq_refl)
    as (Hstructured & Hflatten & _ & _ & Hflat & _).
  split; [exact Hstructured | split; [exact Hflatten |]].
  apply Hflat. unfold offset_fits. lia.
Defined.

(** The host whose window has no samples. *)
Lemma flat_is_metadata_then_values_witness :
  values (getData Scenario.make Scenario.getHostNameServiceDesc
                  Scenario.column (Scenario.HostRow "host3")) = []
  /\ Scenario.flat (Scenario.HostRow "host3") None 0
     = ["1600000000"; "1600000000"; "300"]%string
  /\ Scenario.structured (Scenario.HostRow "host3") None 0
     = [[ITimePoint Scenario.t0; ITimePoint Scenario.t0; IUnsignedLong 300%N]].
Proof.
  split; [reflexivity |].
  destruct (flat_is_metadata_then_values
              Scenario.make Scenario.getHostNameServiceDesc C_locale
              Scenario.column (Scenario.HostRow "host3") [] (@None Scenario.contact) 0)
    as (Hflat & _ & _ & Hempty).
  destruct (Hempty eq_refl) as (_ & Hstructured).
  split; [exact Hflat | exact Hstructured].
Defined.

(** The CPU load window of the scenario is well formed, and at offset 0 its
    timestamps are the store's own. *)
Lemma offset_shifts_timestamps_only_witness :
  Data_wf (getData Scenario.make Scenario.getHostNameServiceDesc
                   Scenario.column (Scenario.ServiceRow "host1" "CPU load"))
  /\ firstn 2 (Scenario.flat (Scenario.ServiceRow "host1" "CPU load") None 0)
     = ["1600000000"; "1600000120"]%string
  /\ skipn 2 (Scenario.flat (Scenario.ServiceRow "host1" "CPU load") None 3600)
     = skipn 2 (Scenario.flat (Scenario.ServiceRow "host1" "CPU load") None (-7200)).
Proof.
  assert (Hwf : Data_wf (getData Scenario.make Scenario.getHostNameServiceDesc
                   Scenario.column (Scenario.ServiceRow "host1" "CPU load"))).
  { change (Data_wf Scenario.cpu_load_window).
    unfold Data_wf, int64_range, Scenario.cpu_load_window, Scenario.t0,
      Scenario.t0_seconds, ticks_per_second.
    simpl. lia. }
  split; [exact Hwf |].
  destruct (offset_shifts_timestamps_only
              Scenario.make Scenario.getHostNameServiceDesc C_locale
              Scenario.column (Scenario.ServiceRow "host1" "CPU load")
              (@None Scenario.contact) 3600 (-7200))
    as (Hrest & _ & _ & _).
  destruct (offset_shifts_timestamps_only
              Scenario.make Scenario.getHostNameServiceDesc C_locale
              Scenario.column (Scenario.ServiceRow "host1" "CPU load")
              (@None Scenario.contact) 0 0)
    as (_ & _ & _ & Hzero).
  split; [exact (Hzero Hwf) | exact Hrest].
Defined.

(** The scenario of the specification: host1's CPU load, step 60, two
    samples, seen one hour east in the "C" locale. *)
Lemma flat_text_forms_witness :
  getData Scenario.make Scenario.getHostNameServiceDesc
          Scenario.column (Scenario.ServiceRow "host1" "CPU load")
  = {| start := 1600000000 * ticks_per_second;
       end_ := (1600000000 + 120) * ticks_per_second;
       step := 60%N;
       values := [Num 0.5%float; Num 0.7%float] |}
  /\ offset_fits 3600
  /\ int64_range ((1600000000 + 3600) * ticks_per_second)
  /\ int64_range ((1600000000 + 120 + 3600) * ticks_per_second)
  /\ Scenario.flat (Scenario.ServiceRow "host1" "CPU load") None 3600
     = ["1600003600"; "1600003720"; "60"; "0.500000"; "0.700000"]%string
  /\ (nth_error (values (getData Scenario.make Scenario.getHostNameServiceDesc
                    Scenario.column (Scenario.ServiceRow "host1" "CPU load"))) 1
      = Some (Num 0.7%float)
      /\ exists text : string,
           nth_error (Scenario.flat (Scenario.ServiceRow "host1" "CPU load")
                                    None 3600) 4
           = Some text
           /\ printed_sample C_locale (Num 0.7%float) text).
Proof.
  assert (Hfit : offset_fits 3600) by (unfold offset_fits; lia).
  assert (Hs : int64_range ((1600000000 + 3600) * ticks_per_second))
    by (unfold int64_range, ticks_per_second; lia).
  assert (He : int64_range ((1600000000 + 120 + 3600) * ticks_per_second))
    by (unfold int64_range, ticks_per_second; lia).
  destruct (flat_text_forms
              Scenario.make Scenario.getHostNameServiceDesc C_locale
              Scenario.column (Scenario.ServiceRow "host1" "CPU load")
              [] (@None Scenario.contact) 3600 1600000000)
    as (_ & _ & _ & Hsample & Hscenario).
  destruct (Hscenario eq_refl Hfit Hs He) as (_ & _ & Hflat).
  repeat match goal with |- _ /\ _ => split end; try assumption.
  - reflexivity.
  - exact (Hflat eq_refl).
  - reflexivity.
  - exact (Hsample 1%nat (Num 0.7%float) eq_refl).
Defined.

(** On the scenario of the specification the samples do not print as "0.5"
    and "0.7": [std::to_string] gives six digits after the point; and the
    text is specific to the locale: where the decimal point is a comma, the
    same samples print with a comma. *)
Lemma samples_print_with_six_digits :
  getData Scenario.make Scenario.getHostNameServiceDesc
          Scenario.column (Scenario.ServiceRow "host1" "CPU load")
  = {| start := Scenario.t0;
       end_ := Scenario.t0 + 120 * ticks_per_second;
       step := 60%N;
       values := [Num 0.5%float; Num 0.7%float] |}
  /\ Scenario.structured (Scenario.ServiceRow "host1" "CPU load") None 0
     = [[ITimePoint Scenario.t0;
         ITimePoint (Scenario.t0 + 120 * ticks_per_second);
         IUnsignedLong 60%N; IDouble (Num 0.5%float); IDouble (Num 0.7%float)]]
  /\ Scenario.flat (Scenario.ServiceRow "host1" "CPU load") None 0
     = ["1600000000"; "1600000120"; "60"; "0.500000"; "0.700000"]%string
  /\ Scenario.flat (Scenario.ServiceRow "host1" "CPU load") None 0
     <> ["1600000000"; "1600000120"; "60"; "0.5"; "0.7"]%string
  /\ Scenario.flat_in Scenario.comma_locale
                       (Scenario.ServiceRow "host1" "CPU load") None 0
     = ["1600000000"; "1600000120"; "60"; "0,500000"; "0,700000"]%string
  /\ Scenario.flat_in Scenario.comma_locale
                       (Scenario.ServiceRow "host1" "CPU load") None 0
     <> Scenario.flat_in C_locale
                         (Scenario.ServiceRow "host1" "CPU load") None 0.
Proof.
  repeat match goal with |- _ /\ _ => split end;
    try (vm_compute; reflexivity); vm_compute; intros H; discriminate H.
Qed.

(** The store refuses the connection while host2's window is fetched. *)
Lemma store_failure_witness :
  Scenario.getHostNameServiceDesc
    Scenario.column (Scenario.ServiceRow "host2" "CPU load")
  = Some ("host2", "CPU load")%string
  /\ Scenario.fetch (_mc (data_maker_ Scenario.column))
                    (_args (data_maker_ Scenario.column))
                    ("host2", "CPU load")%string
     = Adapter.Failure "rrdcached: connection refused"
  /\ Scenario.getHostNameServiceDesc Scenario.column Scenario.Orphan = None
  /\ Scenario.flat (Scenario.ServiceRow "host2" "CPU load") None 3600
     = Scenario.flat Scenario.Orphan None 3600
  /\ Scenario.structured (Scenario.ServiceRow "host2" "CPU load") None 3600
     = [empty_window].
Proof.
  split; [reflexivity | split; [reflexivity | split; [reflexivity |]]].
  destruct (store_failure_degrades_to_empty_window
              Scenario.fetch Scenario.getHostNameServiceDesc C_locale
              Scenario.column (Scenario.ServiceRow "host2" "CPU load")
              Scenario.Orphan ("host2", "CPU load")%string
              "rrdcached: connection refused"
              ([] : Recorded) [] (@None Scenario.contact) 3600
              eq_refl eq_refl eq_refl)
    as (_ & Hflat & Hstructured & _).
  split; [exact Hflat | exact Hstructured].
Defined.

(** * Further properties of the column *)

(** ** Time points under an offset *)

Lemma plus_exact (tp : time_point) (tz : seconds) :
  shift_fits tp tz -> plus tp tz = tp + tz * ticks_per_second.
Proof.
  intros (Hfit & Hrange). unfold plus, to_ticks.
  rewrite (wrap64_id (tz * _))
    by (unfold offset_fits in Hfit; unfold int64_range, ticks_per_second; lia).
  now apply wrap64_id.
Qed.

Lemma after_epoch_plus (tp : time_point) (tz : seconds) :
  shift_stays_after_epoch tp tz ->
  to_time_t (plus tp tz) = to_time_t tp + tz.
Proof.
  intros (Hfits & Htp & Hshifted).
  rewrite (plus_exact _ _ Hfits). unfold to_time_t.
  rewrite !Z.quot_div_nonneg by (unfold ticks_per_second in *; lia).
  apply Z.div_add. discriminate.
Qed.

Lemma to_time_t_mono (a b : time_point) :
  a <= b -> to_time_t a <= to_time_t b.
Proof.
  intros Hab. unfold to_time_t. apply Z.quot_le_mono; [reflexivity | exact Hab].
Qed.

(** [to_time_t] drops the part of a second, towards the epoch. *)
Lemma to_time_t_truncates (tp : time_point) :
  Z.abs (tp - to_time_t tp * ticks_per_second) < ticks_per_second
  /\ Z.abs (to_time_t tp * ticks_per_second) <= Z.abs tp.
Proof.
  unfold to_time_t.
  assert (HT : 0 < ticks_per_second) by reflexivity.
  pose proof (Z.quot_rem' tp ticks_per_second) as Hqr.
  destruct (Z.le_gt_cases 0 tp) as [Hpos | Hneg].
  - pose proof (Z.rem_bound_pos tp ticks_per_second Hpos HT) as Hr.
    pose proof (Z.quot_pos tp ticks_per_second Hpos HT) as Hq.
    nia.
  - pose proof (Z.rem_bound_pos (- tp) ticks_per_second ltac:(lia) HT) as Hr.
    rewrite Z.rem_opp_l in Hr by discriminate.
    assert (Hq : Z.quot tp ticks_per_second <= 0) by nia.
    nia.
Qed.


(** ** The text of a field *)

Lemma micro_units_small (m : positive) (e : Z) :
  e < 0 -> 2 * (Z.pos m * 10 ^ 6) < 2 ^ (- e) -> micro_units m e = 0.
Proof.
  intros He Hsmall. unfold micro_units.
  destruct (0 <=? e) eqn:Hsign; [apply Z.leb_le in Hsign; lia |].
  unfold round_half_even.
  set (num := Z.pos m * 10 ^ 6) in *. set (den := 2 ^ (- e)) in *.
  assert (Hnum : 0 <= num) by (unfold num; lia).
  rewrite Z.mod_small, Z.div_small by lia.
  now replace (2 * num ?= den) with Lt by (symmetry; apply Z.compare_lt_iff; lia).
Qed.

Lemma sample_text_app (lc : lconv) (a b : string) :
  sample_text lc (a ++ b) = (sample_text lc a && sample_text lc b)%bool.
Proof.
  unfold sample_text.
  induction a as [|c a IH]; cbn [append list_ascii_of_string forallb].
  - reflexivity.
  - now rewrite IH, Bool.andb_assoc.
Qed.

Lemma nonempty_app_l (a b : string) :
  String.eqb a "" = false -> String.eqb (a ++ b) "" = false.
Proof. destruct a; simpl; [discriminate | auto]. Qed.

Lemma nonempty_app_r (a b : string) :
  String.eqb b "" = false -> String.eqb (a ++ b) "" = false.
Proof. destruct a; simpl; auto. Qed.

Lemma integer_uint (d : Decimal.uint) :
  forallb is_integer_char (list_ascii_of_string (NilEmpty.string_of_uint d))
  = true.
Proof. induction d; simpl; auto. Qed.

Lemma integer_field_uint (d : Decimal.uint) :
  integer_field (NilZero.string_of_uint d) = true.
Proof.
  unfold integer_field. apply andb_true_intro. split.
  - destruct d; reflexivity.
  - destruct d; [reflexivity | apply integer_uint ..].
Qed.

Lemma integer_field_to_string_unsigned_long (n : N) :
  integer_field (to_string_unsigned_long n) = true.
Proof. apply integer_field_uint. Qed.

Lemma integer_field_to_string_long (z : Z) :
  integer_field (to_string_long z) = true.
Proof.
  unfold to_string_long. destruct (Z.to_int z) as [d | d]; simpl.
  - apply integer_field_uint.
  - pose proof (integer_field_uint d) as Hd.
    unfold integer_field in *. apply andb_prop in Hd as [_ Hd].
    exact Hd.
Qed.

Lemma integer_field_is_sample_field (lc : lconv) (s : string) :
  integer_field s = true -> sample_field lc s = true.
Proof.
  unfold integer_field, sample_field, sample_text.
  intros Hs. apply andb_prop in Hs as [Hne Hchars].
  rewrite Hne. cbn [andb].
  apply forallb_forall. intros c Hc.
  unfold is_sample_char.
  now rewrite (proj1 (forallb_forall _ _) Hchars c Hc).
Qed.

Lemma sample_text_point (lc : lconv) : sample_text lc (decimal_point lc) = true.
Proof.
  unfold sample_text. apply forallb_forall. intros c Hc.
  unfold is_sample_char.
  assert (Hin : existsb (Ascii.eqb c) (list_ascii_of_string (decimal_point lc))
                = true).
  { apply existsb_exists. exists c. split; [exact Hc | apply Ascii.eqb_refl]. }
  rewrite Hin. now rewrite !Bool.orb_true_r.
Qed.

Lemma sample_text_frac_digits (lc : lconv) (k : nat) (f : Z) :
  sample_text lc (frac_digits k f) = true.
Proof.
  revert f. induction k as [|k IH]; intros f; cbn [frac_digits]; [reflexivity |].
  rewrite sample_text_app, IH. unfold sample_text.
  cbn [list_ascii_of_string forallb andb]. unfold is_sample_char, is_integer_char.
  rewrite digit_char_is_digit; [reflexivity |].
  apply Z.mod_pos_bound. lia.
Qed.

Lemma sample_field_fixed6 (lc : lconv) (s : bool) (u : Z) :
  sample_field lc (sign_prefix s ++ fixed6 lc u) = true.
Proof.
  pose proof (integer_field_is_sample_field lc _
                (integer_field_to_string_long (u / 10 ^ 6))) as Hwhole.
  unfold sample_field in *. apply andb_prop in Hwhole as [Hne Hwhole].
  apply andb_true_intro. split.
  - apply negb_true_iff. apply nonempty_app_r. unfold fixed6.
    apply nonempty_app_l. now apply negb_true_iff.
  - unfold fixed6.
    rewrite !sample_text_app, Hwhole, sample_text_point, sample_text_frac_digits.
    now destruct s.
Qed.

Lemma sample_field_to_string_double (lc : lconv) (x : double) :
  sample_field lc (to_string_double lc x) = true.
Proof.
  unfold to_string_double. destruct x as [x |]; [| reflexivity].
  destruct (Prim2SF x) as [s | s | | s m e].
  - apply sample_field_fixed6.
  - now destruct s.
  - reflexivity.
  - apply sample_field_fixed6.
Qed.

(** ** The column *)

Section MoreProperties.

Context {MonitoringCore RRDColumnArgs ColumnOffsets Row contact : Type}.
Variable make : RRDDataMaker MonitoringCore RRDColumnArgs -> string * string -> Data.
Variable getHostNameServiceDesc :
  RRDColumn MonitoringCore RRDColumnArgs ColumnOffsets -> Row ->
  option (string * string).
Variable lc_numeric : lconv.

(** X1: a column built by the constructor from a core and arguments renders
    every row that resolves to a subject from the window [make] gives for
    that subject with exactly that core and those arguments, in both
    encodings; name, description and offsets do not enter the fetch. *)
Theorem constructed_column_fetches_with_its_arguments
    (name description : string) (offsets : ColumnOffsets)
    (mc : MonitoringCore) (args : RRDColumnArgs)
    (row : Row) (subject : string * string)
    (rec : Recorded) (auth_user : option contact) (tz : seconds) :
  getHostNameServiceDesc (RRDColumn_ctor name description offsets mc args) row
  = Some subject ->
  output make getHostNameServiceDesc
         (RRDColumn_ctor name description offsets mc args) row rec auth_user tz
  = rec ++ [ITimePoint (start (make {| _mc := mc; _args := args |} subject))
            :: ITimePoint (end_ (make {| _mc := mc; _args := args |} subject))
            :: IUnsignedLong (step (make {| _mc := mc; _args := args |} subject))
            :: map IDouble (values (make {| _mc := mc; _args := args |} subject))]
  /\ getValue make getHostNameServiceDesc lc_numeric
              (RRDColumn_ctor name description offsets mc args) row auth_user tz
     = flatten lc_numeric tz
         (ITimePoint (start (make {| _mc := mc; _args := args |} subject))
          :: ITimePoint (end_ (make {| _mc := mc; _args := args |} subject))
          :: IUnsignedLong (step (make {| _mc := mc; _args := args |} subject))
          :: map IDouble (values (make {| _mc := mc; _args := args |} subject))).
Proof.
  intros Hrow.
  assert (Hdata : getData make getHostNameServiceDesc
                    (RRDColumn_ctor name description offsets mc args) row
                  = make {| _mc := mc; _args := args |} subject).
  { unfold getData. now rewrite Hrow. }
  rewrite output_recorded_raw, getValue_strings, Hdata.
  split; [reflexivity |].
  unfold flatten. cbn [map flatten_item]. now rewrite map_map.
Qed.

(** X2: a row whose subject cannot be resolved never reaches the adapter:
    whatever [make] would answer, both renderings of the row are the same. *)
Theorem unresolved_row_never_reaches_the_adapter {RR LR : Type} `{Renderer RR LR}
    (make' : RRDDataMaker MonitoringCore RRDColumnArgs -> string * string -> Data)
    (this : RRDColumn MonitoringCore RRDColumnArgs ColumnOffsets) (row : Row)
    (r : RR) (auth_user : option contact) (tz : seconds) :
  getHostNameServiceDesc this row = None ->
  output make getHostNameServiceDesc this row r auth_user tz
  = output make' getHostNameServiceDesc this row r auth_user tz
  /\ getValue make getHostNameServiceDesc lc_numeric this row auth_user tz
     = getValue make' getHostNameServiceDesc lc_numeric this row auth_user tz.
Proof.
  intros Hnone.
  rewrite !output_replay_raw, !getValue_strings.
  now rewrite (getData_unresolved_raw make _ _ _ Hnone),
    (getData_unresolved_raw make' _ _ _ Hnone).
Qed.

(** X3: for a window at or after the epoch and an offset that keeps it there
    without overflow, each flat timestamp is the timestamp at offset 0 plus
    the offset, in seconds. *)
Theorem offset_shift_is_exact_after_epoch
    (this : RRDColumn MonitoringCore RRDColumnArgs ColumnOffsets) (row : Row)
    (auth_user : option contact) (tz : seconds) :
  Data_wf (getData make getHostNameServiceDesc this row) ->
  shift_stays_after_epoch
    (start (getData make getHostNameServiceDesc this row)) tz ->
  shift_stays_after_epoch
    (end_ (getData make getHostNameServiceDesc this row)) tz ->
  firstn 2 (getValue make getHostNameServiceDesc lc_numeric this row auth_user tz)
  = [to_string_long
       (to_time_t (start (getData make getHostNameServiceDesc this row)) + tz);
     to_string_long
       (to_time_t (end_ (getData make getHostNameServiceDesc this row)) + tz)]
  /\ map parse_long
         (firstn 2 (getValue make getHostNameServiceDesc lc_numeric this row auth_user tz))
     = map (option_map (fun s => s + tz))
         (map parse_long
            (firstn 2 (getValue make getHostNameServiceDesc lc_numeric this row auth_user 0))).
Proof.
  intros (Hstart & Hend & _) Hs He.
  rewrite !getValue_strings. cbn [firstn map].
  rewrite (after_epoch_plus _ _ Hs), (after_epoch_plus _ _ He).
  split; [reflexivity |].
  rewrite !parse_long_to_string_long. cbn [option_map].
  now rewrite (plus_zero _ Hstart), (plus_zero _ Hend).
Qed.

(** X4: when the window's start is not after its end and the offset
    overflows on neither, the flat start timestamp is not after the flat end
    timestamp. *)
Theorem flat_keeps_start_before_end
    (this : RRDColumn MonitoringCore RRDColumnArgs ColumnOffsets) (row : Row)
    (auth_user : option contact) (tz : seconds) :
  start (getData make getHostNameServiceDesc this row)
  <= end_ (getData make getHostNameServiceDesc this row) ->
  shift_fits (start (getData make getHostNameServiceDesc this row)) tz ->
  shift_fits (end_ (getData make getHostNameServiceDesc this row)) tz ->
  exists s e : Z,
    map parse_long
        (firstn 2 (getValue make getHostNameServiceDesc lc_numeric this row auth_user tz))
    = [Some s; Some e]
    /\ s <= e.
Proof.
  intros Horder Hs He.
  rewrite getValue_strings. cbn [firstn map].
  rewrite !parse_long_to_string_long.
  eexists _, _. split; [reflexivity |].
  rewrite (plus_exact _ _ Hs), (plus_exact _ _ He).
  apply to_time_t_mono. lia.
Qed.

(** X5: at offset 0 each flat timestamp is the stored time point cut to a
    whole second towards the epoch: it is off by less than one second and
    never further from the epoch than the stored time. *)
Theorem flat_timestamps_truncate_towards_epoch
    (this : RRDColumn MonitoringCore RRDColumnArgs ColumnOffsets) (row : Row)
    (auth_user : option contact) :
  Data_wf (getData make getHostNameServiceDesc this row) ->
  exists s e : Z,
    map parse_long
        (firstn 2 (getValue make getHostNameServiceDesc lc_numeric this row auth_user 0))
    = [Some s; Some e]
    /\ Z.abs (start (getData make getHostNameServiceDesc this row)
              - s * ticks_per_second) < ticks_per_second
    /\ Z.abs (s * ticks_per_second)
       <= Z.abs (start (getData make getHostNameServiceDesc this row))
    /\ Z.abs (end_ (getData make getHostNameServiceDesc this row)
              - e * ticks_per_second) < ticks_per_second
    /\ Z.abs (e * ticks_per_second)
       <= Z.abs (end_ (getData make getHostNameServiceDesc this row)).
Proof.
  intros (Hs & He & _).
  rewrite getValue_strings. cbn [firstn map].
  rewrite !parse_long_to_string_long, (plus_zero _ Hs), (plus_zero _ He).
  eexists _, _. split; [reflexivity |].
  destruct (to_time_t_truncates (start (getData make getHostNameServiceDesc this row))).
  destruct (to_time_t_truncates (end_ (getData make getHostNameServiceDesc this row))).
  auto.
Qed.

(** X6: a finite sample smaller in magnitude than half of the sixth decimal
    prints in flat mode as zero with its sign, "0.000000" or "-0.000000" in
    the "C" locale and with the locale's decimal point in general, while the
    structured output hands the sample itself to the renderer. *)
Theorem small_samples_print_as_zero
    (this : RRDColumn MonitoringCore RRDColumnArgs ColumnOffsets) (row : Row)
    (rec : Recorded) (auth_user : option contact) (tz : seconds)
    (i : nat) (x : float) (s : bool) (m : positive) (e : Z) :
  nth_error (values (getData make getHostNameServiceDesc this row)) i
  = Some (Num x) ->
  Prim2SF x = S754_finite s m e ->
  e < 0 ->
  2 * (Z.pos m * 10 ^ 6) < 2 ^ (- e) ->
  nth_error (getValue make getHostNameServiceDesc lc_numeric this row auth_user tz)
            (3 + i)
  = Some (sign_prefix s ++ "0" ++ decimal_point lc_numeric ++ "000000")%string
  /\ (lc_numeric = C_locale ->
      nth_error
        (getValue make getHostNameServiceDesc lc_numeric this row auth_user tz)
        (3 + i)
      = Some (sign_prefix s ++ "0.000000")%string)
  /\ exists l : list item,
       output make getHostNameServiceDesc this row rec auth_user tz = rec ++ [l]
       /\ nth_error l (3 + i) = Some (IDouble (Num x)).
Proof.
  intros Hi Hx He Hsmall.
  assert (Htext : nth_error (getValue make getHostNameServiceDesc lc_numeric
                               this row auth_user tz) (3 + i)
                  = Some (sign_prefix s ++ "0" ++ decimal_point lc_numeric
                          ++ "000000")%string).
  { rewrite getValue_strings. cbn [Nat.add nth_error].
    rewrite nth_error_map, Hi. cbn [option_map].
    unfold to_string_double. rewrite Hx, (micro_units_small _ _ He Hsmall).
    reflexivity. }
  split; [exact Htext | split].
  - intros Hlc. rewrite Htext, Hlc. reflexivity.
  - rewrite output_recorded_raw. eexists. split; [reflexivity |].
    cbn [Nat.add nth_error]. now rewrite nth_error_map, Hi.
Qed.

(** X7: every field of the flat output is non-empty.  In every locale the
    three metadata fields are made of digits and the sign only; a sample
    field is made of digits, the sign, the letters of "inf" and "nan" and the
    characters of the locale's decimal point only.  In the "C" locale no
    field therefore holds a comma, a semicolon, a blank or a line break. *)
Theorem flat_fields_are_plain
    (this : RRDColumn MonitoringCore RRDColumnArgs ColumnOffsets) (row : Row)
    (auth_user : option contact) (tz : seconds) :
  forallb integer_field
          (firstn 3 (getValue make getHostNameServiceDesc lc_numeric
                              this row auth_user tz))
  = true
  /\ forallb (sample_field lc_numeric)
             (skipn 3 (getValue make getHostNameServiceDesc lc_numeric
                                this row auth_user tz))
     = true
  /\ (lc_numeric = C_locale ->
      forall (field : string) (c : ascii),
        In field (getValue make getHostNameServiceDesc lc_numeric
                           this row auth_user tz) ->
        In c (list_ascii_of_string field) ->
        c <> ","%char /\ c <> ";"%char /\ c <> " "%char
        /\ c <> "010"%char /\ c <> "013"%char).
Proof.
  assert (Hmeta : forallb integer_field
                    (firstn 3 (getValue make getHostNameServiceDesc lc_numeric
                                        this row auth_user tz)) = true).
  { rewrite getValue_strings. cbn [firstn forallb].
    now rewrite !integer_field_to_string_long,
      integer_field_to_string_unsigned_long. }
  assert (Hsamples : forallb (sample_field lc_numeric)
                       (skipn 3 (getValue make getHostNameServiceDesc lc_numeric
                                          this row auth_user tz)) = true).
  { rewrite getValue_strings. cbn [skipn].
    apply forallb_forall. intros text Htext.
    apply in_map_iff in Htext as (x & <- & _).
    apply sample_field_to_string_double. }
  split; [exact Hmeta | split; [exact Hsamples |]].
  intros Hlc field c Hfield Hc.
  assert (Hchar : is_sample_char C_locale c = true).
  { rewrite <- (firstn_skipn 3 (getValue make getHostNameServiceDesc lc_numeric
                                         this row auth_user tz)) in Hfield.
    apply in_app_or in Hfield as [Hin | Hin].
    - pose proof (proj1 (forallb_forall _ _) Hmeta field Hin) as Hf.
      apply (integer_field_is_sample_field C_locale) in Hf.
      unfold sample_field, sample_text in Hf. apply andb_prop in Hf as [_ Hf].
      exact (proj1 (forallb_forall _ _) Hf c Hc).
    - pose proof (proj1 (forallb_forall _ _) Hsamples field Hin) as Hf.
      rewrite Hlc in Hf.
      unfold sample_field, sample_text in Hf. apply andb_prop in Hf as [_ Hf].
      exact (proj1 (forallb_forall _ _) Hf c Hc). }
  repeat split; intros ->; discriminate Hchar.
Qed.

(** X8: for a window whose start and end lie on whole seconds, before or
    after the epoch, the flat timestamps are exactly those seconds plus the
    offset, as long as the shifted times fit 64 bits. *)
Theorem whole_second_window_shifts_exactly
    (this : RRDColumn MonitoringCore RRDColumnArgs ColumnOffsets) (row : Row)
    (auth_user : option contact) (tz : seconds) (s e : Z) :
  start (getData make getHostNameServiceDesc this row) = s * ticks_per_second ->
  end_ (getData make getHostNameServiceDesc this row) = e * ticks_per_second ->
  offset_fits tz ->
  int64_range ((s + tz) * ticks_per_second) ->
  int64_range ((e + tz) * ticks_per_second) ->
  firstn 2 (getValue make getHostNameServiceDesc lc_numeric this row auth_user tz)
  = [to_string_long (s + tz); to_string_long (e + tz)].
Proof.
  intros Hstart Hend Hfit Hs He.
  rewrite getValue_strings, Hstart, Hend. cbn [firstn].
  now rewrite (whole_seconds_plus _ _ Hfit Hs), (whole_seconds_plus _ _ Hfit He).
Qed.

(** X9: the flat output determines the window's metadata: two flat outputs
    that are equal come from windows with the same step and the same number
    of samples, whose starts and whose ends, shifted by the respective
    offsets, fall in the same second. *)
Theorem flat_output_determines_metadata
    (this this' : RRDColumn MonitoringCore RRDColumnArgs ColumnOffsets)
    (row row' : Row) (auth_user auth_user' : option contact) (tz tz' : seconds) :
  getValue make getHostNameServiceDesc lc_numeric this row auth_user tz
  = getValue make getHostNameServiceDesc lc_numeric this' row' auth_user' tz' ->
  to_time_t (plus (start (getData make getHostNameServiceDesc this row)) tz)
  = to_time_t (plus (start (getData make getHostNameServiceDesc this' row')) tz')
  /\ to_time_t (plus (end_ (getData make getHostNameServiceDesc this row)) tz)
     = to_time_t (plus (end_ (getData make getHostNameServiceDesc this' row')) tz')
  /\ step (getData make getHostNameServiceDesc this row)
     = step (getData make getHostNameServiceDesc this' row')
  /\ List.length (values (getData make getHostNameServiceDesc this row))
     = List.length (values (getData make getHostNameServiceDesc this' row')).
Proof.
  rewrite !getValue_strings. intros Heq.
  injection Heq as Hstart Hend Hstep Hvalues.
  repeat split.
  - now apply to_string_long_inj.
  - now apply to_string_long_inj.
  - apply (f_equal parse_unsigned_long) in Hstep.
    rewrite !parse_unsigned_long_to_string in Hstep. congruence.
  - apply (f_equal (@List.length string)) in Hvalues.
    now rewrite !length_map in Hvalues.
Qed.

End MoreProperties.

(** ** The further properties on the one-window store *)

Ltac by_evaluation := repeat split; vm_compute; easy.

(** A service row of a column built by the constructor. *)
Lemma constructed_column_witness :
  Probe.getHostNameServiceDesc (Probe.column Probe.fine_window) Probe.service
  = Some ("host1", "CPU load")%string
  /\ Probe.structured Probe.fine_window Probe.service 3600
     = [ITimePoint (start Probe.fine_window)
        :: ITimePoint (end_ Probe.fine_window)
        :: IUnsignedLong (step Probe.fine_window)
        :: map IDouble (values Probe.fine_window)]
  /\ Probe.flat Probe.fine_window Probe.service 3600
     = ["1500003600"; "1500003900"; "1";
        "0.000000"; "-0.000000"; "0.250000"]%string.
Proof.
  split; [reflexivity |].
  destruct (constructed_column_fetches_with_its_arguments
              Probe.make Probe.getHostNameServiceDesc C_locale
              "rrddata" "RRD metrics data" tt Probe.fine_window tt
              Probe.service ("host1", "CPU load")%string
              [] (@None Probe.contact) 3600 eq_refl)
    as (Hstructured & Hflat).
  split; [exact Hstructured |].
  etransitivity; [exact Hflat | vm_compute; reflexivity].
Defined.

(** An unresolved row, with a store that holds a window and one that does
    not. *)
Lemma unresolved_row_witness :
  Probe.getHostNameServiceDesc (Probe.column Probe.fine_window) None = None
  /\ Probe.flat Probe.fine_window None 5
     = getValue (fun _ _ => Data_default) Probe.getHostNameServiceDesc
                C_locale (Probe.column Probe.fine_window) None
                (@None Probe.contact) 5.
Proof.
  split; [reflexivity |].
  destruct (unresolved_row_never_reaches_the_adapter
              Probe.make Probe.getHostNameServiceDesc C_locale
              (fun _ _ => Data_default)
              (Probe.column Probe.fine_window) None
              ([] : Recorded) (@None Probe.contact) 5 eq_refl)
    as (_ & Hflat).
  exact Hflat.
Defined.

(** The window moved back by 1500000000 seconds: it then starts a quarter of
    a second after the epoch. *)
Lemma offset_shift_witness :
  Data_wf Probe.fine_window
  /\ shift_stays_after_epoch (start Probe.fine_window) (-1500000000)
  /\ shift_stays_after_epoch (end_ Probe.fine_window) (-1500000000)
  /\ firstn 2 (Probe.flat Probe.fine_window Probe.service (-1500000000))
     = ["0"; "300"]%string.
Proof.
  assert (Hwf : Data_wf Probe.fine_window) by by_evaluation.
  assert (Hs : shift_stays_after_epoch (start Probe.fine_window) (-1500000000))
    by by_evaluation.
  assert (He : shift_stays_after_epoch (end_ Probe.fine_window) (-1500000000))
    by by_evaluation.
  repeat match goal with |- _ /\ _ => split end; try assumption.
  destruct (offset_shift_is_exact_after_epoch
              Probe.make Probe.getHostNameServiceDesc C_locale
              (Probe.column Probe.fine_window) Probe.service
              (@None Probe.contact) (-1500000000) Hwf Hs He)
    as (Hflat & _).
  exact Hflat.
Defined.

(** The window moved back one second further: its start is then before the
    epoch, its end after. *)
Lemma flat_keeps_order_witness :
  start Probe.fine_window <= end_ Probe.fine_window
  /\ shift_fits (start Probe.fine_window) (-1500000001)
  /\ shift_fits (end_ Probe.fine_window) (-1500000001)
  /\ exists s e : Z,
       map parse_long
           (firstn 2 (Probe.flat Probe.fine_window Probe.service (-1500000001)))
       = [Some s; Some e]
       /\ s <= e.
Proof.
  assert (Horder : start Probe.fine_window <= end_ Probe.fine_window)
    by by_evaluation.
  assert (Hs : shift_fits (start Probe.fine_window) (-1500000001))
    by by_evaluation.
  assert (He : shift_fits (end_ Probe.fine_window) (-1500000001))
    by by_evaluation.
  repeat match goal with |- _ /\ _ => split end; try assumption.
  exact (flat_keeps_start_before_end
           Probe.make Probe.getHostNameServiceDesc C_locale
           (Probe.column Probe.fine_window) Probe.service
           (@None Probe.contact) (-1500000001) Horder Hs He).
Defined.

(** The window's quarter and three quarters of a second are cut off. *)
Lemma flat_timestamps_truncate_witness :
  Data_wf Probe.fine_window
  /\ exists s e : Z,
       map parse_long (firstn 2 (Probe.flat Probe.fine_window Probe.service 0))
       = [Some s; Some e]
       /\ Z.abs (start Probe.fine_window - s * ticks_per_second)
          < ticks_per_second
       /\ Z.abs (s * ticks_per_second) <= Z.abs (start Probe.fine_window)
       /\ Z.abs (end_ Probe.fine_window - e * ticks_per_second)
          < ticks_per_second
       /\ Z.abs (e * ticks_per_second) <= Z.abs (end_ Probe.fine_window).
Proof.
  assert (Hwf : Data_wf Probe.fine_window) by by_evaluation.
  split; [exact Hwf |].
  exact (flat_timestamps_truncate_towards_epoch
           Probe.make Probe.getHostNameServiceDesc C_locale
           (Probe.column Probe.fine_window) Probe.service
           (@None Probe.contact) Hwf).
Defined.

(** The second sample of the window, four parts in ten million below zero. *)
Lemma small_samples_witness :
  nth_error (values (getData Probe.make Probe.getHostNameServiceDesc
                             (Probe.column Probe.fine_window) Probe.service)) 1
  = Some (Num (-0.0000004)%float)
  /\ Prim2SF (-0.0000004)%float = S754_finite true 7555786372591432 (-74)
  /\ -74 < 0
  /\ 2 * (7555786372591432 * 10 ^ 6) < 2 ^ (- -74)
  /\ nth_error (Probe.flat Probe.fine_window Probe.service 0) 4
     = Some "-0.000000"%string.
Proof.
  assert (Hsmall : 2 * (7555786372591432 * 10 ^ 6) < 2 ^ (- -74))
    by (vm_compute; reflexivity).
  split; [reflexivity | split; [reflexivity | split; [lia | split; [exact Hsmall |]]]].
  destruct (small_samples_print_as_zero
              Probe.make Probe.getHostNameServiceDesc C_locale
              (Probe.column Probe.fine_window) Probe.service
              [] (@None Probe.contact) 0
              1%nat (-0.0000004)%float true 7555786372591432%positive (-74)
              eq_refl eq_refl ltac:(lia) Hsmall)
    as (_ & Hflat & _).
  exact (Hflat eq_refl).
Defined.

(** A window on whole seconds that begins ten seconds before the epoch. *)
Lemma whole_second_window_witness :
  start (getData Probe.make Probe.getHostNameServiceDesc
                 (Probe.column {| start := -10 * ticks_per_second;
                                  end_ := 50 * ticks_per_second;
                                  step := 60%N; values := [] |})
                 Probe.service)
  = -10 * ticks_per_second
  /\ end_ (getData Probe.make Probe.getHostNameServiceDesc
                   (Probe.column {| start := -10 * ticks_per_second;
                                    end_ := 50 * ticks_per_second;
                                    step := 60%N; values := [] |})
                   Probe.service)
     = 50 * ticks_per_second
  /\ offset_fits 7
  /\ int64_range ((-10 + 7) * ticks_per_second)
  /\ int64_range ((50 + 7) * ticks_per_second)
  /\ firstn 2 (Probe.flat {| start := -10 * ticks_per_second;
                             end_ := 50 * ticks_per_second;
                             step := 60%N; values := [] |}
                          Probe.service 7)
     = ["-3"; "57"]%string.
Proof.
  assert (Hfit : offset_fits 7) by by_evaluation.
  assert (Hs : int64_range ((-10 + 7) * ticks_per_second)) by by_evaluation.
  assert (He : int64_range ((50 + 7) * ticks_per_second)) by by_evaluation.
  split; [reflexivity | split; [reflexivity |]].
  split; [exact Hfit | split; [exact Hs | split; [exact He |]]].
  exact (whole_second_window_shifts_exactly
           Probe.make Probe.getHostNameServiceDesc C_locale
           (Probe.column {| start := -10 * ticks_per_second;
                            end_ := 50 * ticks_per_second;
                            step := 60%N; values := [] |})
           Probe.service (@None Probe.contact) 7 (-10) 50
           eq_refl eq_refl Hfit Hs He).
Defined.

(** The window and the same window cut to whole seconds print alike. *)
Lemma flat_output_determines_witness :
  Probe.flat Probe.fine_window Probe.service 60
  = Probe.flat {| start := 1500000000 * ticks_per_second;
                  end_ := 1500000300 * ticks_per_second;
                  step := 1%N;
                  values := values Probe.fine_window |}
               (Some ("host2", "Memory")%string) 60
  /\ to_time_t (plus (start Probe.fine_window) 60)
     = to_time_t (plus (1500000000 * ticks_per_second) 60)
  /\ step Probe.fine_window = 1%N.
Proof.
  split; [vm_compute; reflexivity |].
  destruct (flat_output_determines_metadata
              Probe.make Probe.getHostNameServiceDesc C_locale
              (Probe.column Probe.fine_window)
              (Probe.column {| start := 1500000000 * ticks_per_second;
                               end_ := 1500000300 * ticks_per_second;
                               step := 1%N;
                               values := values Probe.fine_window |})
              Probe.service (Some ("host2", "Memory")%string)
              (@None Probe.contact) (@None Probe.contact) 60 60
              ltac:(vm_compute; reflexivity))
    as (Hstart & _ & Hstep & _).
  split; [exact Hstart | exact Hstep].
Defined.

(** The sample "-0.000000" of the window, in the "C" locale. *)
Lemma flat_fields_witness :
  C_locale = C_locale
  /\ In "-0.000000"%string (Probe.flat Probe.fine_window Probe.service 0)
  /\ In "."%char (list_ascii_of_string "-0.000000")
  /\ "."%char <> ","%char /\ "."%char <> ";"%char.
Proof.
  assert (Hfield : In "-0.000000"%string
                      (Probe.flat Probe.fine_window Probe.service 0))
    by (vm_compute; tauto).
  assert (Hchar : In "."%char (list_ascii_of_string "-0.000000"))
    by (vm_compute; tauto).
  split; [reflexivity | split; [exact Hfield | split; [exact Hchar |]]].
  destruct (flat_fields_are_plain
              Probe.make Probe.getHostNameServiceDesc C_locale
              (Probe.column Probe.fine_window) Probe.service
              (@None Probe.contact) 0)
    as (_ & _ & Hplain).
  destruct (Hplain eq_refl "-0.000000"%string "."%char Hfield Hchar)
    as (Hcomma & Hsemicolon & _).
  split; [exact Hcomma | exact Hsemicolon].
Defined.
